(** * KdV example of PINNs-Torch: the data loader and the PDE residual

    A shallow embedding of [examples/kdv/train.py]: the two callbacks
    [read_data_fn] and [pde_fn] that the script hands to [pinnstorch.train].

    - Python dicts that are passed around by reference ([outputs],
      [extra_variables]) live in a heap of dicts; a call receives and
      returns references.
    - Tensors are immutable values: every torch operation the script uses
      (unary minus, [*], binary [-], [torch.exp], [fwd_gradient]) builds a
      new tensor.  The operations themselves belong to the tensor library
      and are an interface here ([TensorLib]).
    - Exceptions are an explicit result; the state reached when an
      exception is raised is kept, as in Python. *)

From Stdlib Require Import Reals.
From Stdlib Require Import Floats.SpecFloat.
From stdpp Require Import gmap strings.

Local Open Scope string_scope.

(** ** Exceptions and the state-and-exception monad *)

(** The failures the two callbacks can meet.  [KeyError] is Python's, raised
    by a dict subscript; the other three are the error taxonomy of the
    data layer and of the differentiation primitive. *)
Inductive exn : Type :=
| KeyError (key : string)
| DataNotFoundError
| DataFormatError
| NonDifferentiableInputError.

Inductive result (A : Type) : Type :=
| Ok (a : A)
| Raise (e : exn).

Arguments Ok {A} a.
Arguments Raise {A} e.

(** A computation over a state [S]: it ends with a value or an exception,
    and with the state it has reached. *)
Definition M (S A : Type) : Type := S → result A * S.

#[global] Instance M_ret {S} : MRet (M S) :=
  λ A (a : A) s, (Ok a, s).

#[global] Instance M_bind {S} : MBind (M S) :=
  λ A B (k : A → M S B) (c : M S A) s,
    match c s with
    | (Ok a, s') => k a s'
    | (Raise e, s') => (Raise e, s')
    end.

(** A library call that touches no state. *)
Definition lift {S A} (r : result A) : M S A := λ s, (r, s).

(** Running a computation: unfold the monad down to the matches on the
    results of its statements. *)
Ltac unfold_M := unfold mbind, M_bind, mret, M_ret, lift.

Ltac unfold_M_in H := unfold mbind, M_bind, mret, M_ret, lift in H.

(** ** The heap of dicts *)

Abbreviation loc := positive.

(** A heap gives every reference its dict; [h !!! l] is the dict that [l]
    denotes (the empty dict for a reference nothing was stored under). *)
Abbreviation heap T := (gmap loc (gmap string T)).

(** [d[key]] *)
Definition getitem {T} (d : loc) (key : string) : M (heap T) T :=
  λ h, match (h !!! d : gmap string T) !! key with
       | Some v => (Ok v, h)
       | None => (Raise (KeyError key), h)
       end.

(** [d[key] = v] *)
Definition setitem {T} (d : loc) (key : string) (v : T) : M (heap T) unit :=
  λ h, (Ok tt, <[d := <[key := v]> (h !!! d : gmap string T)]> h).

(** ** The tensor library *)

(** What [pde_fn] uses of torch and of [pinnstorch.utils]. *)
Class TensorLib (T : Type) : Type := {
  neg : T → T;                       (* [-a] *)
  mul : T → T → T;                   (* [a * b] *)
  sub : T → T → T;                   (* [a - b] *)
  torch_exp : T → T;                 (* [torch.exp(a)] *)
  fwd_gradient : T → T → result T    (* [pinnstorch.utils.fwd_gradient(dy, dx)] *)
}.

(** ** [pde_fn] *)

Section PdeFn.
Context {T : Type} {lib : TensorLib T}.

(** The right-hand side of line 31,
    [-l1 * U * U_x - torch.exp(l2) * U_xxx], term by term; unary minus
    binds tighter than [*], and [*] associates to the left. *)
Definition first_term (l1 U U_x : T) : T := mul (mul (neg l1) U) U_x.

Definition second_term (l2 U_xxx : T) : T := mul (torch_exp l2) U_xxx.

Definition residual (l1 l2 U U_x U_xxx : T) : T :=
  sub (first_term l1 U U_x) (second_term l2 U_xxx).

Definition pde_fn (outputs : loc) (x : T) (extra_variables : loc)
  : M (heap T) loc :=
  U ← getitem outputs "u";
  U_x ← lift (fwd_gradient U x);
  U_xx ← lift (fwd_gradient U_x x);
  U_xxx ← lift (fwd_gradient U_xx x);
  l1 ← getitem extra_variables "l1";
  l2 ← getitem extra_variables "l2";
  setitem outputs "f" (residual l1 l2 U U_x U_xxx);;
  mret outputs.

End PdeFn.

(** ** Symbolic tensors

    Tensors as autograd sees them: a tensor is the computation graph that
    produced it from the coordinate leaf.  The constants of these graphs
    are never computed with: the graphs serve as sample tensors for the
    contract of [pde_fn], which does not look inside a tensor. *)

Inductive graph : Type :=
| Leaf                        (* the coordinate tensor [x] *)
| Const (c : R)               (* a tensor that does not depend on [x] *)
| Neg (a : graph)
| Add (a b : graph)
| Sub (a b : graph)
| Mul (a b : graph)
| Exp (a : graph).

(** The derivative of a graph with respect to the leaf, node by node. *)
Fixpoint D (g : graph) : graph :=
  match g with
  | Leaf => Const 1
  | Const _ => Const 0
  | Neg a => Neg (D a)
  | Add a b => Add (D a) (D b)
  | Sub a b => Sub (D a) (D b)
  | Mul a b => Add (Mul (D a) b) (Mul a (D b))
  | Exp a => Mul (Exp a) (D a)
  end.

(** Modelled from the spec: [pinnstorch.utils.fwd_gradient], which is not
    part of the example script.  The derivative is exact, taken with
    respect to the coordinate; when [dx] is not a tensor that requires
    differentiation the call fails with [NonDifferentiableInputError]. *)
Definition graph_fwd_gradient (dy dx : graph) : result graph :=
  match dx with
  | Leaf => Ok (D dy)
  | _ => Raise NonDifferentiableInputError
  end.

(** The arithmetic of graphs, with the gradient primitive left open. *)
Definition graph_ops (fg : graph → graph → result graph) : TensorLib graph :=
  {| neg := Neg; mul := Mul; sub := Sub; torch_exp := Exp; fwd_gradient := fg |}.

Definition graph_lib : TensorLib graph := graph_ops graph_fwd_gradient.

(** ** Tensors in float32 arithmetic

    The arithmetic of line 31 as torch runs it on float32 tensors, element
    by element: every operation rounds to the nearest 32-bit float, ties to
    even, overflows to an infinity, and follows IEEE 754 on infinities and
    NaN.  A tensor is again the graph that produced it from the
    coordinate, now with 32-bit floats for constants, and [eval32] is its
    value at a coordinate. *)















(** ** Arrays of the data layer *)

(** A two-dimensional array: its shape and its elements in row-major
    order. *)
Record matrix (A : Type) : Type := Matrix {
  shape : nat * nat;
  items : list A
}.

Arguments Matrix {A} shape items.
Arguments shape {A} m.
Arguments items {A} m.

Definition map_matrix {A B} (f : A → B) (m : matrix A) : matrix B :=
  Matrix (shape m) (f <$> items m).

(** An array with its element type.  Floating-point elements are IEEE 754
    values ([spec_float]); a complex element is its real and imaginary
    part. *)
Inductive ndarray : Type :=
| Complex128 (m : matrix (spec_float * spec_float))
| Float64 (m : matrix spec_float)
| Float32 (m : matrix spec_float)
| NonNumeric (m : matrix string)   (* elements that are not numbers *).

Inductive dtype : Type := complex128 | float64 | float32 | object_.

Definition dtype_of (a : ndarray) : dtype :=
  match a with
  | Complex128 _ => complex128
  | Float64 _ => float64
  | Float32 _ => float32
  | NonNumeric _ => object_
  end.

Definition shape_of (a : ndarray) : nat * nat :=
  match a with
  | Complex128 m => shape m
  | Float64 m => shape m
  | Float32 m => shape m
  | NonNumeric m => shape m
  end.

(** Rounding to the nearest 32-bit float, ties to even (24 bits of
    precision, infinities at exponent 128). *)
Definition to_binary32 (v : spec_float) : spec_float :=
  match v with
  | S754_finite s m e => binary_round 24 128 s m e
  | _ => v
  end.

(** [np.real(a)]: the real parts of a complex array; a real array is
    returned as it is. *)
Definition np_real (a : ndarray) : ndarray :=
  match a with
  | Complex128 m => Float64 (map_matrix fst m)
  | _ => a
  end.

(** [a.astype("float32")] on a numeric array: every element is rounded to
    a 32-bit float, and casting a complex array keeps the real parts.
    Modelled from the spec: the cast of a field that is not numeric, which
    fails with [DataFormatError].  (numpy itself reads text that spells
    numbers and raises its own [ValueError] on other text; the model
    follows the error taxonomy of the data layer.) *)
Definition astype_float32 (a : ndarray) : result ndarray :=
  match a with
  | Complex128 m => Ok (Float32 (map_matrix (to_binary32 ∘ fst) m))
  | Float64 m => Ok (Float32 (map_matrix to_binary32 m))
  | Float32 m => Ok (Float32 m)
  | NonNumeric _ => Raise DataFormatError
  end.

(** Modelled from the spec: the container that [load_data] returns, a
    set of named array fields.  Asking for a field the container does not
    have fails with [DataFormatError]. *)
Definition field (data : gmap string ndarray) (name : string) : result ndarray :=
  match data !! name with
  | Some a => Ok a
  | None => Raise DataFormatError
  end.

(** ** [read_data_fn] *)

Section ReadDataFn.
Context {W : Type}.
Variable load_data : string → string → M W (gmap string ndarray).

Definition read_data_fn (root_path : string) : M W (gmap string ndarray) :=
  data ← load_data root_path "KdV.mat";
  uu ← lift (field data "uu");
  exact_u ← lift (astype_float32 (np_real uu));
  mret ({["u" := exact_u]} : gmap string ndarray).

End ReadDataFn.

(** The files the loader can see: the parsed contents of each file, by
    directory and file name. *)
Abbreviation filesystem := (gmap (string * string) (gmap string ndarray)).

(** Modelled from the spec: [pinnstorch.utils.load_data], which is not part
    of the example script.  It locates the named file in the directory and
    returns its contents, and fails with [DataNotFoundError] when the file
    is absent; it only reads. *)
Definition load_data (root_path file_name : string)
  : M filesystem (gmap string ndarray) :=
  λ fs, match fs !! (root_path, file_name) with
        | Some contents => (Ok contents, fs)
        | None => (Raise DataNotFoundError, fs)
        end.

(** The value of [v] written with [n] more bits of mantissa, the way an
    array of wider floats holds it: [m * 2^n] at exponent [e - n]. *)
Definition widen (n : N) (v : spec_float) : spec_float :=
  match v with
  | S754_finite s m e => S754_finite s (Pos.shiftl m n) (e - Z.of_N n)
  | _ => v
  end.

(** ** Sample inputs *)

(** A heap with two dicts: at reference 1 the outputs of a forward pass,
    with the field [u(x) = x * x] and a residual left by an earlier call;
    at reference 2 the extra variables. *)
Definition sample_heap : gmap positive (gmap string graph) :=
  <[1%positive := <["u" := Mul Leaf Leaf]> {["f" := Const 42]}]>
    {[2%positive := <["l1" := Const 6]> {["l2" := Const 0]}]}.

(** A two-by-two complex field with zero imaginary parts; the doubles are
    1.5, 0.1, -0 and 3 * 2^-150. *)
Definition sample_uu : matrix (spec_float * spec_float) :=
  Matrix (2, 2)%nat
    [(S754_finite false 6755399441055744 (-52), S754_zero false);
     (S754_finite false 7205759403792794 (-56), S754_zero false);
     (S754_zero true, S754_zero false);
     (S754_finite false 3 (-150), S754_zero false)].

(** The fields of three files: one with [uu] and two more fields, one
    without [uu], one whose [uu] is not numeric. *)
Definition sample_file : gmap string ndarray :=
  <["uu" := Complex128 sample_uu]>
    (<["x" := Float64 (Matrix (1, 2)%nat [S754_zero false; S754_zero false])]>
       {["tt" := Float64 (Matrix (1, 2)%nat [S754_zero false; S754_zero false])]}).

Definition sample_file_bare : gmap string ndarray :=
  {["x" := Float64 (Matrix (1, 1)%nat [S754_zero false])]}.

Definition sample_file_text : gmap string ndarray :=
  {["uu" := NonNumeric (Matrix (1, 1)%nat ["abc"])]}.

(** Three directories, [data], [bare] and [text], each with its
    [KdV.mat]; no other directory has the file. *)
Definition sample_fs : gmap (string * string) (gmap string ndarray) :=
  <[("data", "KdV.mat") := sample_file]>
    (<[("bare", "KdV.mat") := sample_file_bare]>
       {[("text", "KdV.mat") := sample_file_text]}).

(** A heap whose outputs have [u(x) = x] and an earlier residual, and
    where nothing was ever stored under the reference 2 of the extra
    variables. *)
Definition sample_heap_bare : gmap positive (gmap string graph) :=
  {[1%positive := <["u" := Leaf]> {["f" := Const 42]}]}.

(** The field [sample_uu] with imaginary parts that are not zero. *)
Definition sample_uu_imag : matrix (spec_float * spec_float) :=
  Matrix (2, 2)%nat
    [(S754_finite false 6755399441055744 (-52), S754_finite true 3 (-1));
     (S754_finite false 7205759403792794 (-56), S754_nan);
     (S754_zero true, S754_infinity false);
     (S754_finite false 3 (-150), S754_finite false 1 0)].

Definition sample_fs_imag : gmap (string * string) (gmap string ndarray) :=
  {[("data", "KdV.mat") := {["uu" := Complex128 sample_uu_imag]}]}.

(** Three 32-bit floats, 1.5, -0 and the least positive one, and the
    doubles that hold the same values. *)
Definition sample_floats : matrix spec_float :=
  Matrix (1, 3)%nat
    [S754_finite false 12582912 (-23); S754_zero true;
     S754_finite false 1 (-149)].

Definition sample_doubles : matrix spec_float :=
  Matrix (1, 3)%nat
    [S754_finite false 6755399441055744 (-52); S754_zero true;
     S754_finite false 4503599627370496 (-201)].

Definition sample_fs_doubles : gmap (string * string) (gmap string ndarray) :=
  {[("data", "KdV.mat") := {["uu" := Float64 sample_doubles]}]}.







(** * Properties *)

(** ** The monad *)

(** An exception leaves through every later statement: nothing catches
    it. *)
Lemma bind_raise {S A B} (c : M S A) (k : A → M S B) s e s' :
  c s = (Raise e, s') → (c ≫= k) s = (Raise e, s').
Proof. intros Hc. unfold_M. by rewrite Hc. Qed.

(** ** [pde_fn]: what a call does *)

Section PdeFnFacts.
Context {T : Type} {lib : TensorLib T}.
Implicit Types (h : heap T) (outputs extra_variables : loc) (x : T).

Lemma pde_fn_ok outputs x extra_variables h U U_x U_xx U_xxx l1 l2 :
  (h !!! outputs : gmap string T) !! "u" = Some U →
  fwd_gradient U x = Ok U_x →
  fwd_gradient U_x x = Ok U_xx →
  fwd_gradient U_xx x = Ok U_xxx →
  (h !!! extra_variables : gmap string T) !! "l1" = Some l1 →
  (h !!! extra_variables : gmap string T) !! "l2" = Some l2 →
  pde_fn outputs x extra_variables h =
    (Ok outputs,
     <[outputs := <["f" := residual l1 l2 U U_x U_xxx]> (h !!! outputs)]> h).
Proof.
  intros Hu H1 H2 H3 Hl1 Hl2.
  unfold pde_fn, getitem, setitem; unfold_M.
  rewrite Hu, H1, H2, H3, Hl1, Hl2. reflexivity.
Qed.

Lemma pde_fn_inv outputs x extra_variables h r h' :
  pde_fn outputs x extra_variables h = (Ok r, h') →
  ∃ U U_x U_xx U_xxx l1 l2,
    (h !!! outputs : gmap string T) !! "u" = Some U ∧
    fwd_gradient U x = Ok U_x ∧
    fwd_gradient U_x x = Ok U_xx ∧
    fwd_gradient U_xx x = Ok U_xxx ∧
    (h !!! extra_variables : gmap string T) !! "l1" = Some l1 ∧
    (h !!! extra_variables : gmap string T) !! "l2" = Some l2 ∧
    r = outputs ∧
    h' = <[outputs := <["f" := residual l1 l2 U U_x U_xxx]> (h !!! outputs)]> h.
Proof.
  unfold pde_fn, getitem, setitem; unfold_M.
  destruct ((h !!! outputs : gmap string T) !! "u") as [U|] eqn:Hu; [|discriminate].
  destruct (fwd_gradient U x) as [U_x|] eqn:H1; [|discriminate].
  destruct (fwd_gradient U_x x) as [U_xx|] eqn:H2; [|discriminate].
  destruct (fwd_gradient U_xx x) as [U_xxx|] eqn:H3; [|discriminate].
  destruct ((h !!! extra_variables : gmap string T) !! "l1") as [l1|] eqn:Hl1;
    [|discriminate].
  destruct ((h !!! extra_variables : gmap string T) !! "l2") as [l2|] eqn:Hl2;
    [|discriminate].
  intros [= <- <-]. exists U, U_x, U_xx, U_xxx, l1, l2. repeat split; done.
Qed.

(** A call that raises has stored nothing. *)
Lemma pde_fn_raise outputs x extra_variables h e h' :
  pde_fn outputs x extra_variables h = (Raise e, h') → h' = h.
Proof.
  unfold pde_fn, getitem, setitem; unfold_M.
  destruct ((h !!! outputs : gmap string T) !! "u") as [U|]; [|congruence].
  destruct (fwd_gradient U x) as [U_x|]; [|congruence].
  destruct (fwd_gradient U_x x) as [U_xx|]; [|congruence].
  destruct (fwd_gradient U_xx x) as [U_xxx|]; [|congruence].
  destruct ((h !!! extra_variables : gmap string T) !! "l1"); [|congruence].
  destruct ((h !!! extra_variables : gmap string T) !! "l2"); congruence.
Qed.

(** Without [outputs["u"]] the first statement raises. *)
Lemma pde_fn_no_u outputs x extra_variables h :
  (h !!! outputs : gmap string T) !! "u" = None →
  pde_fn outputs x extra_variables h = (Raise (KeyError "u"), h).
Proof.
  intros Hu. unfold pde_fn. apply bind_raise. unfold getitem. by rewrite Hu.
Qed.

(** Reading the heap after [outputs[key] = v]. *)
Lemma lookup_setitem h outputs key (v : T) l k :
  ((<[outputs := <[key := v]> (h !!! outputs)]> h !!! l) : gmap string T) !! k =
  if decide ((l, k) = (outputs, key)) then Some v
  else (h !!! l : gmap string T) !! k.
Proof.
  destruct (decide (outputs = l)) as [<-|Hl].
  - rewrite lookup_total_insert_eq.
    destruct (decide (key = k)) as [<-|Hk].
    + rewrite lookup_insert_eq. by rewrite decide_True.
    + rewrite lookup_insert_ne by done. rewrite decide_False; [done|congruence].
  - rewrite lookup_total_insert_ne by done. rewrite decide_False; [done|congruence].
Qed.

Lemma lookup_setitem_other h outputs key (v : T) l k :
  k ≠ key →
  ((<[outputs := <[key := v]> (h !!! outputs)]> h !!! l) : gmap string T) !! k =
  (h !!! l : gmap string T) !! k.
Proof.
  intros Hk. rewrite lookup_setitem. rewrite decide_False; [done|congruence].
Qed.

End PdeFnFacts.

(** ** [pde_fn]: the contract *)

Section PdeFnContract.
Context {T : Type} {lib : TensorLib T}.
Implicit Types (h : heap T) (outputs extra_variables : loc) (x : T).

(** C1.  With [u] in [outputs] and [l1], [l2] in [extra_variables],
    [pde_fn] takes [U_x] as the forward gradient of [u] with respect to [x],
    [U_xx] as that of [U_x] and [U_xxx] as that of [U_xx], stores
    [-l1 * u * U_x - exp(l2) * U_xxx] under the key [f] of [outputs], and
    returns [outputs]. *)
Theorem pde_fn_computes_residual
    outputs x extra_variables h U U_x U_xx U_xxx l1 l2 :
  (h !!! outputs : gmap string T) !! "u" = Some U →
  (h !!! extra_variables : gmap string T) !! "l1" = Some l1 →
  (h !!! extra_variables : gmap string T) !! "l2" = Some l2 →
  fwd_gradient U x = Ok U_x →
  fwd_gradient U_x x = Ok U_xx →
  fwd_gradient U_xx x = Ok U_xxx →
  pde_fn outputs x extra_variables h =
    (Ok outputs,
     <[outputs := <["f" := sub (mul (mul (neg l1) U) U_x)
                               (mul (torch_exp l2) U_xxx)]>
                    (h !!! outputs)]> h).
Proof.
  intros Hu Hl1 Hl2 H1 H2 H3.
  by rewrite (pde_fn_ok _ _ _ _ _ _ _ _ _ _ Hu H1 H2 H3 Hl1 Hl2).
Qed.

(** C4.  A call returns only when [u] was in [outputs] on entry, and the
    mapping it returns then has the key [f]; without [u] the call raises
    [KeyError]; and with [u], [l1], [l2] present and the three gradients
    defined, the call does return. *)
Theorem pde_fn_populates_f outputs x extra_variables h :
  (∀ r h', pde_fn outputs x extra_variables h = (Ok r, h') →
     is_Some ((h !!! outputs : gmap string T) !! "u") ∧
     is_Some ((h' !!! r : gmap string T) !! "f")) ∧
  ((h !!! outputs : gmap string T) !! "u" = None →
     pde_fn outputs x extra_variables h = (Raise (KeyError "u"), h)) ∧
  (∀ U U_x U_xx U_xxx,
     (h !!! outputs : gmap string T) !! "u" = Some U →
     fwd_gradient U x = Ok U_x →
     fwd_gradient U_x x = Ok U_xx →
     fwd_gradient U_xx x = Ok U_xxx →
     is_Some ((h !!! extra_variables : gmap string T) !! "l1") →
     is_Some ((h !!! extra_variables : gmap string T) !! "l2") →
     ∃ h', pde_fn outputs x extra_variables h = (Ok outputs, h') ∧
           is_Some ((h' !!! outputs : gmap string T) !! "f")).
Proof.
  split; [|split].
  - intros r h' Hrun.
    destruct (pde_fn_inv _ _ _ _ _ _ Hrun)
      as (U & U_x & U_xx & U_xxx & l1 & l2 & Hu & _ & _ & _ & _ & _ & -> & ->).
    split; [by rewrite Hu|].
    rewrite lookup_total_insert_eq, lookup_insert_eq. by eexists.
  - apply pde_fn_no_u.
  - intros U U_x U_xx U_xxx Hu H1 H2 H3 [l1 Hl1] [l2 Hl2].
    eexists. split; [by eapply pde_fn_ok|].
    rewrite lookup_total_insert_eq, lookup_insert_eq. by eexists.
Qed.

(** C7.  A call that returned, made again on the same [outputs], [x] and
    [extra_variables], returns the same reference and leaves every dict,
    [f] included, exactly as the first call left it; and a call on any
    other dicts that hold the same [u], [l1] and [l2] stores the same
    [f]. *)
Theorem pde_fn_deterministic outputs x extra_variables h r h1 :
  pde_fn outputs x extra_variables h = (Ok r, h1) →
  pde_fn outputs x extra_variables h1 = (Ok r, h1) ∧
  ∀ outputs2 extra_variables2 h2,
    (h2 !!! outputs2 : gmap string T) !! "u" =
      (h !!! outputs : gmap string T) !! "u" →
    (h2 !!! extra_variables2 : gmap string T) !! "l1" =
      (h !!! extra_variables : gmap string T) !! "l1" →
    (h2 !!! extra_variables2 : gmap string T) !! "l2" =
      (h !!! extra_variables : gmap string T) !! "l2" →
    ∃ h2', pde_fn outputs2 x extra_variables2 h2 = (Ok outputs2, h2') ∧
           (h2' !!! outputs2 : gmap string T) !! "f" =
             (h1 !!! r : gmap string T) !! "f".
Proof.
  intros Hrun.
  destruct (pde_fn_inv _ _ _ _ _ _ Hrun)
    as (U & U_x & U_xx & U_xxx & l1 & l2 & Hu & H1 & H2 & H3 & Hl1 & Hl2 & -> & ->).
  split.
  - rewrite (pde_fn_ok outputs x extra_variables _ U U_x U_xx U_xxx l1 l2);
      try done; try by rewrite lookup_setitem_other.
    f_equal. rewrite lookup_total_insert_eq.
    by rewrite !insert_insert_eq.
  - intros outputs2 extra_variables2 h2 Hu2 Hl12 Hl22.
    rewrite Hu in Hu2. rewrite Hl1 in Hl12. rewrite Hl2 in Hl22.
    eexists. split; [by eapply pde_fn_ok|].
    by rewrite !lookup_total_insert_eq, !lookup_insert_eq.
Qed.

(** C10.  The reference [pde_fn] returns is the reference it was given:
    the caller's dict itself has been updated, and whatever it held under
    [f] on entry has been replaced by the residual of this call. *)
Theorem pde_fn_returns_its_argument outputs x extra_variables h r h' :
  pde_fn outputs x extra_variables h = (Ok r, h') →
  r = outputs ∧
  ∃ U U_x U_xx U_xxx l1 l2,
    (h !!! outputs : gmap string T) !! "u" = Some U ∧
    fwd_gradient U x = Ok U_x ∧
    fwd_gradient U_x x = Ok U_xx ∧
    fwd_gradient U_xx x = Ok U_xxx ∧
    (h !!! extra_variables : gmap string T) !! "l1" = Some l1 ∧
    (h !!! extra_variables : gmap string T) !! "l2" = Some l2 ∧
    (h' !!! outputs : gmap string T) =
      <["f" := residual l1 l2 U U_x U_xxx]> (h !!! outputs) ∧
    (h' !!! outputs : gmap string T) !! "f" = Some (residual l1 l2 U U_x U_xxx).
Proof.
  intros Hrun.
  destruct (pde_fn_inv _ _ _ _ _ _ Hrun)
    as (U & U_x & U_xx & U_xxx & l1 & l2 & Hu & H1 & H2 & H3 & Hl1 & Hl2 & -> & ->).
  split; [done|]. exists U, U_x, U_xx, U_xxx, l1, l2.
  rewrite lookup_total_insert_eq, lookup_insert_eq. by repeat split.
Qed.

End PdeFnContract.

(** ** [read_data_fn] *)

Section ReadDataFnFacts.
Context {W : Type}.
Variable loader : string → string → M W (gmap string ndarray).

(** The three statements of [read_data_fn] after the loader has returned
    touch no state. *)
Lemma read_data_fn_unfold (root_path : string) (w : W) :
  read_data_fn loader root_path w =
  match loader root_path "KdV.mat" w with
  | (Ok data, w') =>
      match field data "uu" with
      | Ok uu =>
          match astype_float32 (np_real uu) with
          | Ok exact_u => (Ok {["u" := exact_u]}, w')
          | Raise e => (Raise e, w')
          end
      | Raise e => (Raise e, w')
      end
  | (Raise e, w') => (Raise e, w')
  end.
Proof.
  unfold read_data_fn; unfold_M.
  destruct (loader root_path "KdV.mat" w) as [[data|e] w']; [|done].
  destruct (field data "uu") as [uu|e]; [|done].
  by destruct (astype_float32 (np_real uu)).
Qed.

Lemma read_data_fn_inv (root_path : string) (w w' : W)
    (m : gmap string ndarray) :
  read_data_fn loader root_path w = (Ok m, w') →
  ∃ data uu exact_u,
    loader root_path "KdV.mat" w = (Ok data, w') ∧
    data !! "uu" = Some uu ∧
    astype_float32 (np_real uu) = Ok exact_u ∧
    m = {["u" := exact_u]}.
Proof.
  rewrite read_data_fn_unfold.
  destruct (loader root_path "KdV.mat" w) as [[data|e] w1]; [|discriminate].
  unfold field.
  destruct (data !! "uu") as [uu|] eqn:Huu; [|discriminate].
  destruct (astype_float32 (np_real uu)) as [exact_u|] eqn:Hcast; [|discriminate].
  intros [= <- <-]. by exists data, uu, exact_u.
Qed.

End ReadDataFnFacts.

(** An array that is numeric is cast, element by element. *)
Lemma astype_float32_numeric (a : ndarray) :
  dtype_of a ≠ object_ → ∃ u, astype_float32 (np_real a) = Ok (Float32 u).
Proof. destruct a; simpl; intros Hn; by eauto. Qed.

(** C2.  For a file [KdV.mat] with a field [uu] of doubles, complex or
    real, [read_data_fn] returns the mapping with the one entry [u]: an
    array of 32-bit floats with the shape of [uu] whose elements are, place
    by place, the real parts of the elements of [uu] rounded to 32-bit
    floats (whatever the imaginary parts, zero in particular).  A field
    that already holds 32-bit floats is returned as it is. *)
Theorem read_data_fn_float32 (root_path : string) (fs : filesystem)
    (contents : gmap string ndarray) :
  fs !! (root_path, "KdV.mat") = Some contents →
  (∀ uu : matrix (spec_float * spec_float),
     contents !! "uu" = Some (Complex128 uu) →
     ∃ u, read_data_fn load_data root_path fs = (Ok {["u" := u]}, fs) ∧
          dtype_of u = float32 ∧
          shape_of u = shape uu ∧
          u = Float32 (Matrix (shape uu) ((λ z, to_binary32 z.1) <$> items uu))) ∧
  (∀ uu : matrix spec_float,
     contents !! "uu" = Some (Float64 uu) →
     ∃ u, read_data_fn load_data root_path fs = (Ok {["u" := u]}, fs) ∧
          dtype_of u = float32 ∧
          shape_of u = shape uu ∧
          u = Float32 (Matrix (shape uu) (to_binary32 <$> items uu))) ∧
  (∀ uu : matrix spec_float,
     contents !! "uu" = Some (Float32 uu) →
     read_data_fn load_data root_path fs = (Ok {["u" := Float32 uu]}, fs)).
Proof.
  intros Hfile. split; [|split]; intros uu Huu.
  - exists (Float32 (Matrix (shape uu) ((λ z, to_binary32 z.1) <$> items uu))).
    split; [|done].
    rewrite read_data_fn_unfold. unfold load_data, field.
    rewrite Hfile, Huu. simpl. unfold map_matrix. simpl.
    by rewrite <- list_fmap_compose.
  - exists (Float32 (Matrix (shape uu) (to_binary32 <$> items uu))).
    split; [|done].
    rewrite read_data_fn_unfold. unfold load_data, field.
    by rewrite Hfile, Huu.
  - rewrite read_data_fn_unfold. unfold load_data, field.
    by rewrite Hfile, Huu.
Qed.


(** C9.  Whatever the loader returns, a mapping that [read_data_fn]
    returns has the key [u] and no other: the other fields of the file are
    not passed on.  And when the loader returns a container with a numeric
    [uu], whatever else it holds, [read_data_fn] does return such a
    mapping. *)
Theorem read_data_fn_only_u (W : Type)
    (loader : string → string → M W (gmap string ndarray))
    (root_path : string) (w : W) :
  (∀ (m : gmap string ndarray) (w' : W),
     read_data_fn loader root_path w = (Ok m, w') →
     dom m = {["u"]} ∧ ∀ k, k ≠ "u" → m !! k = None) ∧
  (∀ (data : gmap string ndarray) (w' : W) (uu : ndarray),
     loader root_path "KdV.mat" w = (Ok data, w') →
     data !! "uu" = Some uu →
     dtype_of uu ≠ object_ →
     ∃ u, read_data_fn loader root_path w = (Ok {["u" := u]}, w')).
Proof.
  split.
  - intros m w' Hrun.
    destruct (read_data_fn_inv _ _ _ _ _ Hrun) as (data & uu & u & _ & _ & _ & ->).
    split; [apply dom_singleton_L|].
    intros k Hk. by apply lookup_singleton_ne.
  - intros data w' uu Hload Huu Hnum.
    destruct (astype_float32_numeric uu Hnum) as [u Hu].
    exists (Float32 u). rewrite read_data_fn_unfold. unfold field.
    by rewrite Hload, Huu, Hu.
Qed.

(** ** What the two callbacks leave untouched *)

(** C8.  Over a call of [pde_fn], however it ends, every entry of every
    dict other than [outputs["f"]] is as it was: [u], [l1] and [l2] among
    them ([x] is a value the call only passes on).  [read_data_fn] does
    nothing to the state beyond what its one call to the loader does. *)
Theorem callbacks_frame :
  (∀ (T : Type) (lib : TensorLib T) (outputs extra_variables : loc) (x : T)
     (h h' : heap T) (res : result loc),
     pde_fn outputs x extra_variables h = (res, h') →
     ∀ (l : loc) (k : string),
       (l, k) ≠ (outputs, "f") →
       (h' !!! l : gmap string T) !! k = (h !!! l : gmap string T) !! k) ∧
  (∀ (W : Type) (loader : string → string → M W (gmap string ndarray))
     (root_path : string) (w : W),
     (read_data_fn loader root_path w).2 = (loader root_path "KdV.mat" w).2).
Proof.
  split.
  - intros T lib outputs extra_variables x h h' [r|e] Hrun l k Hne.
    + destruct (pde_fn_inv _ _ _ _ _ _ Hrun)
        as (U & U_x & U_xx & U_xxx & l1 & l2 & _ & _ & _ & _ & _ & _ & _ & ->).
      rewrite lookup_setitem. by rewrite decide_False.
    + by rewrite (pde_fn_raise _ _ _ _ _ _ Hrun).
  - intros W loader root_path w. rewrite read_data_fn_unfold.
    destruct (loader root_path "KdV.mat" w) as [[data|e] w']; [|done].
    destruct (field data "uu") as [uu|e]; [|done].
    by destruct (astype_float32 (np_real uu)).
Qed.

(** ** Checks of the libraries on known values *)

(** A coordinate that does not require differentiation: the first gradient
    fails and the failure leaves [pde_fn]; nothing is stored. *)
Lemma pde_fn_non_differentiable (outputs extra_variables : loc)
    (h : heap graph) (U : graph) (c : R) :
  (h !!! outputs : gmap string graph) !! "u" = Some U →
  pde_fn (lib := graph_lib) outputs (Const c) extra_variables h =
    (Raise NonDifferentiableInputError, h).
Proof.
  intros Hu. unfold pde_fn, getitem; unfold_M. by rewrite Hu.
Qed.

(** A value that is a 32-bit float already goes through the rounding
    unchanged. *)
Lemma to_binary32_exact (s : bool) (m : positive) (e : Z) :
  bounded 24 128 m e = true →
  to_binary32 (S754_finite s m e) = S754_finite s m e.
Proof.
  unfold bounded, canonical_mantissa. intros [Hc He]%andb_prop.
  apply Z.eqb_eq in Hc.
  unfold to_binary32, binary_round. rewrite Hc.
  unfold shl_align. rewrite Z.sub_diag.
  unfold binary_round_aux, shr_fexp. cbn [Zdigits2 shr_record_of_loc].
  rewrite Hc, Z.sub_diag.
  cbn [shr shr_m loc_of_shr_record round_nearest_even Zdigits2 shr_record_of_loc].
  rewrite Hc, Z.sub_diag. cbn [shr shr_m]. by rewrite He.
Qed.

(** The double 1.5 is a 32-bit float and is kept; the double nearest to
    0.1 is rounded to the 32-bit float nearest to it; a double beyond the
    range of 32-bit floats becomes an infinity; one half of the least
    32-bit float is a tie and goes to the even neighbour, zero. *)
Example to_binary32_kept :
  to_binary32 (S754_finite false 6755399441055744 (-52)) =
  S754_finite false 12582912 (-23).
Proof. reflexivity. Qed.

Example to_binary32_rounded :
  to_binary32 (S754_finite false 7205759403792794 (-56)) =
  S754_finite false 13421773 (-27).
Proof. reflexivity. Qed.

Example to_binary32_overflow :
  to_binary32 (S754_finite true 4503599627370496 148) = S754_infinity true.
Proof. reflexivity. Qed.

Example to_binary32_tie :
  to_binary32 (S754_finite false 4503599627370496 (-202)) = S754_zero false.
Proof. reflexivity. Qed.

(** ** The contract on the sample inputs *)

Lemma pde_fn_computes_residual_witness :
  pde_fn (lib := graph_lib) 1 Leaf 2 sample_heap =
    (Ok 1%positive,
     <[1%positive :=
         <["f" := Sub (Mul (Mul (Neg (Const 6)) (Mul Leaf Leaf))
                           (D (Mul Leaf Leaf)))
                      (Mul (Exp (Const 0)) (D (D (D (Mul Leaf Leaf)))))]>
           (sample_heap !!! 1%positive)]> sample_heap).
Proof.
  apply (pde_fn_computes_residual (lib := graph_lib) 1 Leaf 2 sample_heap
           (Mul Leaf Leaf) (D (Mul Leaf Leaf)) (D (D (Mul Leaf Leaf)))
           (D (D (D (Mul Leaf Leaf)))) (Const 6) (Const 0));
    reflexivity.
Defined.

Lemma pde_fn_populates_f_witness :
  ∃ h', pde_fn (lib := graph_lib) 1 Leaf 2 sample_heap = (Ok 1%positive, h') ∧
        is_Some ((h' !!! 1%positive : gmap string graph) !! "f").
Proof.
  apply (proj2 (proj2 (pde_fn_populates_f (lib := graph_lib) 1 Leaf 2 sample_heap))
           (Mul Leaf Leaf) (D (Mul Leaf Leaf)) (D (D (Mul Leaf Leaf)))
           (D (D (D (Mul Leaf Leaf)))));
    try reflexivity; eexists; reflexivity.
Defined.

Lemma pde_fn_deterministic_witness :
  pde_fn (lib := graph_lib) 1 Leaf 2
    (pde_fn (lib := graph_lib) 1 Leaf 2 sample_heap).2 =
    (Ok 1%positive, (pde_fn (lib := graph_lib) 1 Leaf 2 sample_heap).2).
Proof.
  apply (proj1 (pde_fn_deterministic (lib := graph_lib) 1 Leaf 2 sample_heap
                  1%positive (pde_fn (lib := graph_lib) 1 Leaf 2 sample_heap).2
                  eq_refl)).
Defined.

Lemma pde_fn_returns_its_argument_witness :
  (sample_heap !!! 1%positive : gmap string graph) !! "f" = Some (Const 42) ∧
  ∃ U U_x U_xx U_xxx l1 l2,
    (sample_heap !!! 1%positive : gmap string graph) !! "u" = Some U ∧
    fwd_gradient (TensorLib := graph_lib) U Leaf = Ok U_x ∧
    fwd_gradient (TensorLib := graph_lib) U_x Leaf = Ok U_xx ∧
    fwd_gradient (TensorLib := graph_lib) U_xx Leaf = Ok U_xxx ∧
    (sample_heap !!! 2%positive : gmap string graph) !! "l1" = Some l1 ∧
    (sample_heap !!! 2%positive : gmap string graph) !! "l2" = Some l2 ∧
    ((pde_fn (lib := graph_lib) 1 Leaf 2 sample_heap).2 !!! 1%positive
       : gmap string graph) =
      <["f" := residual (lib := graph_lib) l1 l2 U U_x U_xxx]>
        (sample_heap !!! 1%positive) ∧
    ((pde_fn (lib := graph_lib) 1 Leaf 2 sample_heap).2 !!! 1%positive
       : gmap string graph) !! "f" =
      Some (residual (lib := graph_lib) l1 l2 U U_x U_xxx).
Proof.
  split; [reflexivity|].
  apply (proj2 (pde_fn_returns_its_argument (lib := graph_lib) 1 Leaf 2
                  sample_heap 1%positive
                  (pde_fn (lib := graph_lib) 1 Leaf 2 sample_heap).2 eq_refl)).
Defined.

Lemma read_data_fn_float32_witness :
  ∃ u, read_data_fn load_data "data" sample_fs = (Ok {["u" := u]}, sample_fs) ∧
       dtype_of u = float32 ∧
       shape_of u = (2, 2)%nat ∧
       u = Float32 (Matrix (2, 2)%nat
                      [S754_finite false 12582912 (-23);
                       S754_finite false 13421773 (-27);
                       S754_zero true;
                       S754_finite false 2 (-149)]).
Proof.
  assert (sample_fs !! ("data", "KdV.mat") = Some sample_file) as Hfile
    by (vm_compute; reflexivity).
  apply (proj1 (read_data_fn_float32 "data" sample_fs sample_file Hfile)
           sample_uu).
  reflexivity.
Defined.


Lemma read_data_fn_only_u_witness :
  dom sample_file = {["uu"; "x"; "tt"]} ∧
  ∃ u, read_data_fn load_data "data" sample_fs = (Ok {["u" := u]}, sample_fs) ∧
       dom ({["u" := u]} : gmap string ndarray) = {["u"]} ∧
       ∀ k, k ≠ "u" → ({["u" := u]} : gmap string ndarray) !! k = None.
Proof.
  split; [vm_compute; reflexivity|].
  assert (sample_fs !! ("data", "KdV.mat") = Some sample_file) as Hfile
    by (vm_compute; reflexivity).
  assert (load_data "data" "KdV.mat" sample_fs = (Ok sample_file, sample_fs))
    as Hload by (unfold load_data; rewrite Hfile; reflexivity).
  destruct (proj2 (read_data_fn_only_u _ load_data "data" sample_fs)
              sample_file sample_fs (Complex128 sample_uu) Hload eq_refl)
    as [u Hu]; [discriminate|].
  exists u. split; [exact Hu|].
  exact (proj1 (read_data_fn_only_u _ load_data "data" sample_fs)
           {["u" := u]} sample_fs Hu).
Defined.

Lemma callbacks_frame_witness :
  ((pde_fn (lib := graph_lib) 1 Leaf 2 sample_heap).2 !!! 1%positive
     : gmap string graph) !! "u" = Some (Mul Leaf Leaf) ∧
  ((pde_fn (lib := graph_lib) 1 Leaf 2 sample_heap).2 !!! 2%positive
     : gmap string graph) !! "l1" = Some (Const 6) ∧
  ((pde_fn (lib := graph_lib) 1 Leaf 2 sample_heap).2 !!! 2%positive
     : gmap string graph) !! "l2" = Some (Const 0) ∧
  (read_data_fn load_data "data" sample_fs).2 = sample_fs.
Proof.
  pose proof (proj1 callbacks_frame graph graph_lib 1%positive 2%positive Leaf
                sample_heap (pde_fn (lib := graph_lib) 1 Leaf 2 sample_heap).2
                (Ok 1%positive) eq_refl) as Hframe.
  split; [|split; [|split]].
  - rewrite (Hframe 1%positive "u"); [reflexivity|discriminate].
  - rewrite (Hframe 2%positive "l1"); [reflexivity|discriminate].
  - rewrite (Hframe 2%positive "l2"); [reflexivity|discriminate].
  - rewrite (proj2 callbacks_frame _ load_data "data" sample_fs).
    unfold load_data. by destruct (sample_fs !! ("data", "KdV.mat")).
Defined.

(** * Further properties *)

(** ** [pde_fn]: failures and keys *)

Section PdeFnFurther.
Context {T : Type} {lib : TensorLib T}.
Implicit Types (h : heap T) (outputs extra_variables : loc) (x : T).

(** X1.  A call of [pde_fn] that raises has stored nothing: the heap is
    the heap on entry, [outputs["f"]] included.  The exception is the
    [KeyError] of the first of [u], [l1], [l2] found missing, or the one
    the first failing gradient raised. *)
Theorem pde_fn_failure outputs x extra_variables h e h' :
  pde_fn outputs x extra_variables h = (Raise e, h') →
  h' = h ∧
  (((h !!! outputs : gmap string T) !! "u" = None ∧ e = KeyError "u") ∨
   (∃ U, (h !!! outputs : gmap string T) !! "u" = Some U ∧
      (fwd_gradient U x = Raise e ∨
       ∃ U_x, fwd_gradient U x = Ok U_x ∧
         (fwd_gradient U_x x = Raise e ∨
          ∃ U_xx, fwd_gradient U_x x = Ok U_xx ∧
            (fwd_gradient U_xx x = Raise e ∨
             ∃ U_xxx, fwd_gradient U_xx x = Ok U_xxx ∧
               (((h !!! extra_variables : gmap string T) !! "l1" = None ∧
                 e = KeyError "l1") ∨
                (is_Some ((h !!! extra_variables : gmap string T) !! "l1") ∧
                 (h !!! extra_variables : gmap string T) !! "l2" = None ∧
                 e = KeyError "l2"))))))).
Proof.
  intros Hrun. split; [by eapply pde_fn_raise|].
  unfold pde_fn, getitem, setitem in Hrun; unfold_M_in Hrun.
  destruct ((h !!! outputs : gmap string T) !! "u") as [U|];
    [|injection Hrun as <- _; by left].
  right. exists U. split; [done|].
  destruct (fwd_gradient U x) as [U_x|e1]; [|injection Hrun as <- _; by left].
  right. exists U_x. split; [done|].
  destruct (fwd_gradient U_x x) as [U_xx|e2]; [|injection Hrun as <- _; by left].
  right. exists U_xx. split; [done|].
  destruct (fwd_gradient U_xx x) as [U_xxx|e3]; [|injection Hrun as <- _; by left].
  right. exists U_xxx. split; [done|].
  destruct ((h !!! extra_variables : gmap string T) !! "l1") as [l1|];
    [|injection Hrun as <- _; by left].
  destruct ((h !!! extra_variables : gmap string T) !! "l2") as [l2|];
    [discriminate|injection Hrun as <- _]. right. by eauto.
Qed.

(** X2.  The order of the failures.  With [u] present, a gradient that
    fails ends the call with its exception whatever [extra_variables]
    holds; with the three gradients defined, a missing [l1] raises
    [KeyError] for [l1] even when [l2] is missing too, and a missing [l2]
    raises [KeyError] for [l2] only when [l1] is there. *)
Theorem pde_fn_error_order outputs x extra_variables h U :
  (h !!! outputs : gmap string T) !! "u" = Some U →
  (∀ e, fwd_gradient U x = Raise e →
     pde_fn outputs x extra_variables h = (Raise e, h)) ∧
  (∀ U_x e, fwd_gradient U x = Ok U_x → fwd_gradient U_x x = Raise e →
     pde_fn outputs x extra_variables h = (Raise e, h)) ∧
  (∀ U_x U_xx e,
     fwd_gradient U x = Ok U_x → fwd_gradient U_x x = Ok U_xx →
     fwd_gradient U_xx x = Raise e →
     pde_fn outputs x extra_variables h = (Raise e, h)) ∧
  (∀ U_x U_xx U_xxx,
     fwd_gradient U x = Ok U_x → fwd_gradient U_x x = Ok U_xx →
     fwd_gradient U_xx x = Ok U_xxx →
     ((h !!! extra_variables : gmap string T) !! "l1" = None →
        pde_fn outputs x extra_variables h = (Raise (KeyError "l1"), h)) ∧
     (is_Some ((h !!! extra_variables : gmap string T) !! "l1") →
      (h !!! extra_variables : gmap string T) !! "l2" = None →
        pde_fn outputs x extra_variables h = (Raise (KeyError "l2"), h))).
Proof.
  intros Hu. unfold pde_fn, getitem, setitem; unfold_M. rewrite Hu.
  split; [|split; [|split]].
  - intros e ->. done.
  - intros U_x e -> ->. done.
  - intros U_x U_xx e -> -> ->. done.
  - intros U_x U_xx U_xxx -> -> ->. split.
    + intros ->. done.
    + intros [l1 ->] ->. done.
Qed.

(** X3.  A call that returns has created no dict and removed no key: the
    heap has the references it had, every dict other than [outputs] is the
    dict it was, and the keys of [outputs] are its keys on entry together
    with [f]. *)
Theorem pde_fn_keys outputs x extra_variables h r h' :
  pde_fn outputs x extra_variables h = (Ok r, h') →
  dom h' = dom h ∧
  (∀ l, l ≠ outputs → h' !! l = h !! l) ∧
  dom (h' !!! outputs : gmap string T) =
    {["f"]} ∪ dom (h !!! outputs : gmap string T).
Proof.
  intros Hrun.
  destruct (pde_fn_inv _ _ _ _ _ _ Hrun)
    as (U & U_x & U_xx & U_xxx & l1 & l2 & Hu & _ & _ & _ & _ & _ & _ & ->).
  split; [|split].
  - rewrite dom_insert_L.
    assert (outputs ∈ dom h) as Hin;
      [|by apply subseteq_union_1_L, singleton_subseteq_l].
    apply elem_of_dom. rewrite lookup_total_alt in Hu.
    destruct (h !! outputs) as [d|]; [by eexists|].
    simpl in Hu. by rewrite lookup_empty in Hu.
  - intros l Hl. by rewrite lookup_insert_ne.
  - rewrite lookup_total_insert_eq. by rewrite dom_insert_L.
Qed.

End PdeFnFurther.

(** X4.  A call looks at nothing but its two dicts: with any other dict
    put into the heap, under a reference that is neither [outputs] nor
    [extra_variables], the call ends as it ends without it, with the same
    result or exception and the same stores, and leaves that dict alone. *)
Theorem pde_fn_frame_rule {T : Type} {lib : TensorLib T}
    (outputs extra_variables : loc) (x : T) (h h' : heap T)
    (l : loc) (d : gmap string T) (res : result loc) :
  l ≠ outputs →
  l ≠ extra_variables →
  pde_fn outputs x extra_variables h = (res, h') →
  pde_fn outputs x extra_variables (<[l := d]> h) = (res, <[l := d]> h').
Proof.
  intros Hout Hextra.
  unfold pde_fn, getitem, setitem; unfold_M.
  rewrite !(lookup_total_insert_ne h l) by done.
  destruct ((h !!! outputs : gmap string T) !! "u") as [U|]; cbv beta iota;
    [|by intros [= <- <-]].
  destruct (fwd_gradient U x) as [U_x|]; [|by intros [= <- <-]].
  destruct (fwd_gradient U_x x) as [U_xx|]; [|by intros [= <- <-]].
  destruct (fwd_gradient U_xx x) as [U_xxx|]; [|by intros [= <- <-]].
  rewrite !(lookup_total_insert_ne h l) by done.
  destruct ((h !!! extra_variables : gmap string T) !! "l1") as [l1|];
    cbv beta iota; [|by intros [= <- <-]].
  rewrite !(lookup_total_insert_ne h l) by done.
  destruct ((h !!! extra_variables : gmap string T) !! "l2") as [l2|];
    cbv beta iota; [|by intros [= <- <-]].
  rewrite !(lookup_total_insert_ne h l) by done.
  intros [= <- <-]. f_equal. by apply insert_insert_ne.
Qed.

(** ** [read_data_fn]: what the result depends on *)

Section ReadDataFnFurther.
Context {W : Type}.
Variable loader : string → string → M W (gmap string ndarray).

(** X5.  The imaginary parts of [uu] are dropped without a trace: a complex
    [uu] gives the mapping that the real array of its real parts gives, and
    two complex fields of the same shape with the same real parts give the
    same mapping. *)
Theorem read_data_fn_ignores_imaginary (root_path : string) (w1 w2 w1' w2' : W)
    (data1 data2 : gmap string ndarray)
    (uu1 : matrix (spec_float * spec_float)) :
  loader root_path "KdV.mat" w1 = (Ok data1, w1') →
  loader root_path "KdV.mat" w2 = (Ok data2, w2') →
  data1 !! "uu" = Some (Complex128 uu1) →
  (data2 !! "uu" = Some (Float64 (Matrix (shape uu1) (fst <$> items uu1))) →
     (read_data_fn loader root_path w1).1 = (read_data_fn loader root_path w2).1) ∧
  (∀ uu2 : matrix (spec_float * spec_float),
     data2 !! "uu" = Some (Complex128 uu2) →
     shape uu2 = shape uu1 →
     fst <$> items uu2 = fst <$> items uu1 →
     (read_data_fn loader root_path w1).1 = (read_data_fn loader root_path w2).1).
Proof.
  intros Hload1 Hload2 Huu1.
  split.
  - intros Huu2. rewrite !read_data_fn_unfold, Hload1, Hload2.
    unfold field. by rewrite Huu1, Huu2.
  - intros uu2 Huu2 Hshape Hre. rewrite !read_data_fn_unfold, Hload1, Hload2.
    unfold field. rewrite Huu1, Huu2. simpl. unfold map_matrix. simpl.
    by rewrite Hshape, Hre.
Qed.


End ReadDataFnFurther.

(** ** The cast to 32-bit floats on values that fit *)

Lemma iter_pos_comm {A} (f : A → A) (p : positive) (a : A) :
  SpecFloat.iter_pos f p (f a) = f (SpecFloat.iter_pos f p a).
Proof.
  revert a. induction p as [p IH|p IH|]; intros a; simpl.
  - by rewrite !IH.
  - by rewrite !IH.
  - done.
Qed.

Lemma iter_pos_succ {A} (f : A → A) (p : positive) (a : A) :
  SpecFloat.iter_pos f (Pos.succ p) a = SpecFloat.iter_pos f p (f a).
Proof.
  revert a. induction p as [p IH|p IH|]; intros a; simpl.
  - rewrite !IH. by rewrite !iter_pos_comm.
  - done.
  - done.
Qed.

(** Shifting right the bits that [widen] has put in gives the mantissa
    back, with nothing lost on the way. *)
Lemma iter_pos_shr_1_shiftl (k m : positive) :
  SpecFloat.iter_pos shr_1 k
    {| shr_m := Zpos (Pos.iter xO m k); shr_r := false; shr_s := false |} =
  {| shr_m := Zpos m; shr_r := false; shr_s := false |}.
Proof.
  induction k as [|k IH] using Pos.peano_ind.
  - done.
  - rewrite iter_pos_succ, Pos.iter_succ. simpl. exact IH.
Qed.

Lemma digits2_pos_shiftl (k m : positive) :
  Zpos (digits2_pos (Pos.iter xO m k)) = (Zpos (digits2_pos m) + Zpos k)%Z.
Proof.
  induction k as [|k IH] using Pos.peano_ind.
  - simpl. lia.
  - rewrite Pos.iter_succ. simpl digits2_pos. lia.
Qed.

Lemma to_binary32_widen (n : N) (v : spec_float) :
  valid_binary 24 128 v = true → to_binary32 (widen n v) = v.
Proof.
  destruct v as [| | |s m e]; try done.
  destruct n as [|k]; cbn [widen Pos.shiftl Z.of_N valid_binary].
  - intros Hv. rewrite Z.sub_0_r. by apply to_binary32_exact.
  - unfold bounded, canonical_mantissa. intros [Hc He]%andb_prop.
    apply Z.eqb_eq in Hc.
    assert (fexp 24 128 (Zpos (digits2_pos (Pos.iter xO m k)) + (e - Zpos k)) = e)
      as Hf.
    { rewrite digits2_pos_shiftl.
      by replace (Zpos (digits2_pos m) + Zpos k + (e - Zpos k))%Z
        with (Zpos (digits2_pos m) + e)%Z by lia. }
    unfold to_binary32, binary_round.
    change (Pos.shiftl m (N.pos k)) with (Pos.iter xO m k). rewrite Hf.
    unfold shl_align.
    replace (e - (e - Zpos k))%Z with (Zpos k) by lia.
    unfold binary_round_aux, shr_fexp. cbn [Zdigits2 shr_record_of_loc].
    rewrite Hf. replace (e - (e - Zpos k))%Z with (Zpos k) by lia.
    cbn [shr]. rewrite iter_pos_shr_1_shiftl.
    cbn [shr_m loc_of_shr_record round_nearest_even Zdigits2 shr_record_of_loc].
    replace (e - Zpos k + Zpos k)%Z with e by lia.
    rewrite Hc, Z.sub_diag. cbn [shr shr_m]. by rewrite He.
Qed.

(** X8.  Data that fits comes back as it was.  When every element of the
    loader's [uu], an array of doubles, is the widening of a 32-bit float,
    [read_data_fn] returns exactly the array of those 32-bit floats: the
    cast rounds nothing away. *)
Theorem read_data_fn_round_trip {W : Type}
    (loader : string → string → M W (gmap string ndarray))
    (root_path : string) (w w' : W) (data : gmap string ndarray)
    (uu a : matrix spec_float) :
  loader root_path "KdV.mat" w = (Ok data, w') →
  data !! "uu" = Some (Float64 uu) →
  shape uu = shape a →
  Forall2 (λ d v, valid_binary 24 128 v = true ∧ ∃ n, d = widen n v)
    (items uu) (items a) →
  read_data_fn loader root_path w = (Ok {["u" := Float32 a]}, w').
Proof.
  intros Hload Huu Hshape Hitems.
  rewrite read_data_fn_unfold, Hload. unfold field. rewrite Huu. simpl.
  destruct uu as [sh ds], a as [sh' vs]. simpl in *. subst sh'.
  unfold map_matrix. simpl.
  assert (to_binary32 <$> ds = vs) as ->; [|done].
  clear Huu Hload.
  induction Hitems as [|d v ds vs [Hv [n ->]] _ IH]; [done|].
  rewrite fmap_cons. by rewrite to_binary32_widen, IH.
Qed.

(** ** The further properties on the sample inputs *)

Lemma sample_fs_data :
  sample_fs !! ("data", "KdV.mat") = Some sample_file.
Proof. vm_compute; reflexivity. Qed.


Lemma pde_fn_failure_witness :
  ∃ h', pde_fn (lib := graph_lib) 1 Leaf 2 sample_heap_bare =
          (Raise (KeyError "l1"), h') ∧
        h' = sample_heap_bare ∧
        (h' !!! 1%positive : gmap string graph) !! "f" = Some (Const 42).
Proof.
  exists sample_heap_bare. split; [reflexivity|].
  split; [|reflexivity].
  apply (proj1 (pde_fn_failure (lib := graph_lib) 1 Leaf 2 sample_heap_bare
                  (KeyError "l1") sample_heap_bare eq_refl)).
Defined.

Lemma pde_fn_error_order_witness :
  pde_fn (lib := graph_lib) 1 (Const 1) 2 sample_heap_bare =
    (Raise NonDifferentiableInputError, sample_heap_bare) ∧
  pde_fn (lib := graph_lib) 1 Leaf 2 sample_heap_bare =
    (Raise (KeyError "l1"), sample_heap_bare).
Proof.
  split.
  - apply (proj1 (pde_fn_error_order (lib := graph_lib) 1 (Const 1) 2
                    sample_heap_bare Leaf eq_refl)).
    reflexivity.
  - apply (proj1 (proj2 (proj2 (proj2
             (pde_fn_error_order (lib := graph_lib) 1 Leaf 2
                sample_heap_bare Leaf eq_refl)))
             (D Leaf) (D (D Leaf)) (D (D (D Leaf))) eq_refl eq_refl eq_refl)).
    reflexivity.
Defined.

Lemma pde_fn_keys_witness :
  dom (pde_fn (lib := graph_lib) 1 Leaf 2 sample_heap).2 = dom sample_heap ∧
  (∀ l, l ≠ 1%positive →
     (pde_fn (lib := graph_lib) 1 Leaf 2 sample_heap).2 !! l = sample_heap !! l) ∧
  dom ((pde_fn (lib := graph_lib) 1 Leaf 2 sample_heap).2 !!! 1%positive
         : gmap string graph) =
    {["f"]} ∪ dom (sample_heap !!! 1%positive : gmap string graph).
Proof.
  apply (pde_fn_keys (lib := graph_lib) 1 Leaf 2 sample_heap 1%positive
           (pde_fn (lib := graph_lib) 1 Leaf 2 sample_heap).2 eq_refl).
Defined.

Lemma read_data_fn_ignores_imaginary_witness :
  (read_data_fn load_data "data" sample_fs).1 =
  (read_data_fn load_data "data" sample_fs_imag).1.
Proof.
  apply (proj2 (read_data_fn_ignores_imaginary load_data "data"
                  sample_fs sample_fs_imag sample_fs sample_fs_imag
                  sample_file {["uu" := Complex128 sample_uu_imag]} sample_uu
                  ltac:(unfold load_data; by rewrite sample_fs_data)
                  ltac:(unfold load_data, sample_fs_imag;
                        by rewrite lookup_singleton_eq)
                  eq_refl)
           sample_uu_imag eq_refl eq_refl eq_refl).
Defined.


Lemma read_data_fn_round_trip_witness :
  read_data_fn load_data "data" sample_fs_doubles =
    (Ok {["u" := Float32 sample_floats]}, sample_fs_doubles).
Proof.
  apply (read_data_fn_round_trip load_data "data" sample_fs_doubles
           sample_fs_doubles {["uu" := Float64 sample_doubles]}
           sample_doubles sample_floats).
  - unfold load_data, sample_fs_doubles. by rewrite lookup_singleton_eq.
  - reflexivity.
  - reflexivity.
  - repeat constructor.
    + exists 29%N. reflexivity.
    + exists 0%N. reflexivity.
    + exists 52%N. reflexivity.
Defined.

Lemma pde_fn_frame_rule_witness :
  pde_fn (lib := graph_lib) 1 Leaf 2
    (<[3%positive := {["v" := Leaf]}]> sample_heap) =
    (Ok 1%positive,
     <[3%positive := {["v" := Leaf]}]>
       (pde_fn (lib := graph_lib) 1 Leaf 2 sample_heap).2).
Proof.
  apply (pde_fn_frame_rule (lib := graph_lib) 1 2 Leaf sample_heap
           (pde_fn (lib := graph_lib) 1 Leaf 2 sample_heap).2
           3%positive {["v" := Leaf]} (Ok 1%positive));
    [discriminate | discriminate | reflexivity].
Defined.

(** * The residual in float32 arithmetic *)

(** ** Scaling a product by two *)









(** ** A field constant in space *)



(** ** Doubling [l1] *)


(** ** The float32 residual on the sample inputs *)




